(** * A greeting server: [app.py]

    The program registers one view, [hello], at the root path of a Flask
    application and serves it on [0.0.0.0:80].  The view reads the
    environment variable [MESSAGE] (default ["Hello, Default!"]) and wraps
    it in an [<h1>] element.

    The embedding follows the program: the process environment is a finite
    map that computations read through a small state monad, the view is the
    source's two lines, and the web framework (routing, response building,
    the server loop) is a separate module whose behaviour is taken from the
    specification, since its code is not part of the program. *)

From stdpp Require Import gmap strings list.

Local Open Scope string_scope.

(** ** The process environment *)

(** Python's [os.environ]: variable names mapped to their values. *)
Abbreviation environ := (gmap string string).

(** Computations that run inside the process: they may read and update the
    environment. *)
Definition M (A : Type) : Type := environ → A * environ.

#[global] Instance M_ret : MRet M := λ A a env, (a, env).
#[global] Instance M_bind : MBind M :=
  λ A B k m env, let '(a, env') := m env in k a env'.

Module os.

(** [os.getenv(key, default)]: the value stored under [key], or [default]
    when the environment has no such variable.  A variable that is set to
    the empty string is present. *)
Definition getenv (key dflt : string) : M string :=
  λ env, (default dflt (env !! key), env).

(** [os.environ[key] = value]. *)
Definition putenv (key value : string) : M unit :=
  λ env, (tt, <[key := value]> env).

(** [os.environ.pop(key, None)]: an absent variable stays absent. *)
Definition unsetenv (key : string) : M unit :=
  λ env, (tt, delete key env).

End os.

(** ** HTTP messages *)

Record request := {
  method : string;
  path : string;
  query_string : string;
  headers : list (string * string);
  body : string
}.

Record response := {
  status_code : Z;
  mimetype : string;
  data : string
}.

(** ** The web framework *)

Module Flask.

(** A registered route: the URL rule, the endpoint name and the view. *)
Record rule := {
  rule_path : string;
  endpoint : string;
  view_func : M string
}.

(** An application object: [Flask(import_name)] with its URL map. *)
Record app := {
  import_name : string;
  url_map : list rule
}.

(** Modelled from the spec: the framework's application constructor
    ([Flask(__name__)], not part of the program).  The spec knows no
    routes but the one the program registers, so the URL map starts
    empty; rules the framework adds on its own (static files) are not
    part of this model. *)
Definition Flask (name : string) : app :=
  {| import_name := name; url_map := [] |}.

(** [@a.route(p)] applied to the function [f] named [name]: the rule is
    added after the ones already registered. *)
Definition route (p name : string) (f : M string) (a : app) : app :=
  {| import_name := import_name a;
     url_map := url_map a ++ [{| rule_path := p; endpoint := name; view_func := f |}] |}.

(** What the framework does where neither the program nor the
    specification fixes it: the page sent with a not-found response, and
    the answer to a request whose path has a route but whose method is not
    GET. *)
Record defaults := {
  not_found_page : string;
  method_fallback : request → response
}.

(** What can go wrong when the listener is bound. *)
Inductive bind_error := EACCES | EADDRINUSE.

(** What happens around a running server: a client connects and sends a
    request, or the hosting mechanism changes the process environment. *)
Inductive event :=
  | Connection (req : request)
  | Putenv (key value : string)
  | Unsetenv (key : string).

(** The machine the program is started on: whether an address can be
    bound ([None]: yes), and what happens until the server is shut down. *)
Record host := {
  try_bind : string → Z → option bind_error;
  events : list event
}.

(** What is observed of a run: the addresses the program tried to bind,
    the address it listens on, its responses in order, and the exit status
    once the process has ended. *)
Record process := {
  bind_attempts : list (string * Z);
  listening : option (string * Z);
  responses : list response;
  exit_status : option Z
}.

(** A module that defines the application and starts nothing. *)
Definition imported : process :=
  {| bind_attempts := []; listening := None; responses := []; exit_status := None |}.

Section Framework.

Variable fw : defaults.

(** Modelled from the spec: the framework's conversion of a view's return
    value into a response (Flask's [make_response], not part of the
    program).  A returned string becomes the body of a response with
    status 200 and content type [text/html]. *)
Definition make_response (rv : string) : response :=
  {| status_code := 200; mimetype := "text/html"; data := rv |}.

(** Modelled from the spec: the framework's default not-found response
    (not part of the program), HTTP 404. *)
Definition not_found : response :=
  {| status_code := 404; mimetype := "text/html"; data := not_found_page fw |}.

(** Modelled from the spec: the framework's URL matching (Werkzeug's
    matcher, not part of the program).  The spec speaks of requests to
    the root path and of requests to any other path: a request is for a
    rule when its path is the rule's path as it stands, and the first
    such rule is taken.  The query string is not part of the path.  What
    the framework itself does to a path before it matches (leading
    slashes, redirects to a normalised URL) is not part of this model. *)
Definition match_rule (a : app) (req : request) : option rule :=
  find (λ r, String.eqb (rule_path r) (path req)) (url_map a).

(** Modelled from the spec: the framework's request dispatch (Flask's
    [wsgi_app], not part of the program).  A GET request for a registered
    path is answered by the response made from the view's return value;
    a path with no route by the not-found response; any other method by
    the framework's fallback. *)
Definition wsgi_app (a : app) (req : request) : M response :=
  match match_rule a req with
  | None => mret not_found
  | Some r =>
      if String.eqb (method req) "GET"
      then rv ← view_func r; mret (make_response rv)
      else mret (method_fallback fw req)
  end.

(** Modelled from the spec: the server loop (not part of the program).
    Requests are answered one after the other, each dispatched in the
    environment as it is when the request arrives. *)
Fixpoint serve (a : app) (evs : list event) : M (list response) :=
  match evs with
  | [] => mret []
  | Connection req :: evs' =>
      resp ← wsgi_app a req;
      rest ← serve a evs';
      mret (resp :: rest)
  | Putenv k v :: evs' => _ ← os.putenv k v; serve a evs'
  | Unsetenv k :: evs' => _ ← os.unsetenv k; serve a evs'
  end.

(** Modelled from the spec: [a.run(host=h, port=p)] (Flask's [run], not
    part of the program).  The listener is bound first; when that fails
    the process ends with a non-zero status, having served nothing.
    Otherwise the server answers requests until it is shut down, and the
    process ends with status 0. *)
Definition run (a : app) (h : string) (p : Z) (w : host) : M process :=
  match try_bind w h p with
  | Some _ =>
      mret {| bind_attempts := [(h, p)]; listening := None;
              responses := []; exit_status := Some 1%Z |}
  | None =>
      rs ← serve a (events w);
      mret {| bind_attempts := [(h, p)]; listening := Some (h, p);
              responses := rs; exit_status := Some 0%Z |}
  end.

End Framework.

End Flask.

(** ** The program *)

(** [[
    def hello():
        message = os.getenv('MESSAGE', 'Hello, Default!')
        return f"<h1>{message}</h1>"
    ]] *)
Definition hello : M string :=
  message ← os.getenv "MESSAGE" "Hello, Default!";
  mret ("<h1>" +:+ message +:+ "</h1>").

(** [[
    app = Flask(__name__)

    @app.route('/')
    def hello(): ...
    ]] *)
Definition app (name : string) : Flask.app :=
  Flask.route "/" "hello" hello (Flask.Flask name).

(** The module body, run with [__name__] bound to [name]:
    [[
    if __name__ == "__main__":
        app.run(host="0.0.0.0", port=80)
    ]] *)
Definition main (fw : Flask.defaults) (name : string) (w : Flask.host) : M Flask.process :=
  if String.eqb name "__main__"
  then Flask.run fw (app name) "0.0.0.0" 80 w
  else mret Flask.imported.

(** ** Vocabulary of the statements *)

(** A GET request for the root path; headers, query string and body are
    free. *)
Definition get_root (req : request) : Prop :=
  method req = "GET" ∧ path req = "/".

(** The response of the application to one request. *)
Definition respond (fw : Flask.defaults) (name : string) (req : request) (env : environ) : response :=
  (Flask.wsgi_app fw (app name) req env).1.

(** The environment as the events before a request leave it; connections
    are skipped. *)
Definition environ_after (evs : list Flask.event) (env : environ) : environ :=
  foldl (λ e ev,
           match ev with
           | Flask.Connection _ => e
           | Flask.Putenv k v => <[k := v]> e
           | Flask.Unsetenv k => delete k e
           end) env evs.

(** The number of requests among the events. *)
Fixpoint connections (evs : list Flask.event) : nat :=
  match evs with
  | [] => 0
  | Flask.Connection _ :: evs' => S (connections evs')
  | _ :: evs' => connections evs'
  end.

(** A framework instance to run the definitions on: a plain 404 page and
    405 for the methods a route does not accept. *)
Definition werkzeug : Flask.defaults :=
  {| Flask.not_found_page := "Not Found";
     Flask.method_fallback := λ _,
       {| status_code := 405; mimetype := "text/html"; data := "Method Not Allowed" |} |}.

(** A GET request for [p] with nothing else in it. *)
Definition GET (p : string) : request :=
  {| method := "GET"; path := p; query_string := ""; headers := []; body := "" |}.

(** A host on which nothing can be bound because the port is taken, and
    one on which every address is free; on both, one client is waiting. *)
Definition busy_host : Flask.host :=
  {| Flask.try_bind := λ _ _, Some Flask.EADDRINUSE;
     Flask.events := [Flask.Connection (GET "/")] |}.

Definition free_host : Flask.host :=
  {| Flask.try_bind := λ _ _, None;
     Flask.events := [Flask.Connection (GET "/")] |}.

(** ** Running the definitions *)

Example hello_unset : (hello ∅).1 = "<h1>Hello, Default!</h1>".
Proof. reflexivity. Qed.

Example hello_welcome :
  data (respond werkzeug "__main__" (GET "/") {["MESSAGE" := "Welcome!"]}) = "<h1>Welcome!</h1>".
Proof. vm_compute. reflexivity. Qed.

Example hello_markup :
  data (respond werkzeug "__main__" (GET "/") {["MESSAGE" := "<b>R&D</b>"]})
  = "<h1><b>R&D</b></h1>".
Proof. vm_compute. reflexivity. Qed.

Example nonexistent_404 :
  status_code (respond werkzeug "__main__" (GET "/nonexistent") ∅) = 404%Z.
Proof. reflexivity. Qed.

(** ** The view and the route table *)

Section Properties.

Context (fw : Flask.defaults) (name : string).

(** The view returns the heading around the looked-up message and leaves
    the environment as it found it. *)
Lemma hello_spec (env : environ) :
  hello env = ("<h1>" +:+ default "Hello, Default!" (env !! "MESSAGE") +:+ "</h1>", env).
Proof. reflexivity. Qed.

Lemma url_map_app :
  Flask.url_map (app name)
  = [{| Flask.rule_path := "/"; Flask.endpoint := "hello"; Flask.view_func := hello |}].
Proof. reflexivity. Qed.

Lemma match_rule_root (req : request) :
  path req = "/" →
  Flask.match_rule (app name) req
  = Some {| Flask.rule_path := "/"; Flask.endpoint := "hello"; Flask.view_func := hello |}.
Proof.
  intros Hp. unfold Flask.match_rule. rewrite url_map_app, Hp. reflexivity.
Qed.

Lemma match_rule_other (req : request) :
  path req ≠ "/" → Flask.match_rule (app name) req = None.
Proof.
  intros Hp. unfold Flask.match_rule. rewrite url_map_app. cbn -[String.eqb].
  destruct (String.eqb_spec "/" (path req)) as [Heq | _]; [| reflexivity].
  exfalso. apply Hp. symmetry. exact Heq.
Qed.

(** A GET request for the root path is answered from the view. *)
Lemma wsgi_app_get_root (req : request) (env : environ) :
  get_root req →
  Flask.wsgi_app fw (app name) req env
  = (Flask.make_response
       ("<h1>" +:+ default "Hello, Default!" (env !! "MESSAGE") +:+ "</h1>"), env).
Proof.
  intros [Hm Hp]. unfold Flask.wsgi_app.
  rewrite (match_rule_root req Hp), Hm. reflexivity.
Qed.

(** No request changes the environment, whatever its method and path. *)
Lemma wsgi_app_environ (req : request) (env : environ) :
  (Flask.wsgi_app fw (app name) req env).2 = env.
Proof.
  unfold Flask.wsgi_app, Flask.match_rule. rewrite url_map_app. cbn -[String.eqb].
  destruct (String.eqb "/" (path req)); [| reflexivity].
  destruct (String.eqb (method req) "GET"); reflexivity.
Qed.

End Properties.

(** ** The response to [GET /] *)

(** C1.  While [MESSAGE] is unset, every GET request for the root path is
    answered with status 200 and the body [<h1>Hello, Default!</h1>]. *)
Theorem get_root_unset_default fw name req env :
  get_root req →
  env !! "MESSAGE" = None →
  status_code (respond fw name req env) = 200%Z
  ∧ data (respond fw name req env) = "<h1>Hello, Default!</h1>".
Proof.
  intros Hreq Hunset. unfold respond.
  rewrite wsgi_app_get_root by exact Hreq.
  rewrite Hunset. split; reflexivity.
Qed.

Lemma get_root_unset_default_witness :
  get_root (GET "/") ∧ (∅ : environ) !! "MESSAGE" = None
  ∧ status_code (respond werkzeug "__main__" (GET "/") ∅) = 200%Z
  ∧ data (respond werkzeug "__main__" (GET "/") ∅) = "<h1>Hello, Default!</h1>".
Proof.
  assert (Hreq : get_root (GET "/")) by (split; reflexivity).
  assert (Hunset : (∅ : environ) !! "MESSAGE" = None) by reflexivity.
  split; [exact Hreq |]. split; [exact Hunset |].
  exact (get_root_unset_default werkzeug "__main__" (GET "/") ∅ Hreq Hunset).
Defined.

(** C2.  Whatever string [s] the variable [MESSAGE] holds (the empty
    string and strings with [<], [>] or [&] included), the body of the
    response to [GET /] is [<h1>], then [s] character for character, then
    [</h1>]: nothing is escaped. *)
Theorem get_root_message_verbatim fw name req env s :
  get_root req →
  env !! "MESSAGE" = Some s →
  data (respond fw name req env) = "<h1>" +:+ s +:+ "</h1>".
Proof.
  intros Hreq Hset. unfold respond.
  rewrite wsgi_app_get_root by exact Hreq.
  rewrite Hset. reflexivity.
Qed.

Lemma get_root_message_verbatim_witness :
  data (respond werkzeug "__main__" (GET "/") {["MESSAGE" := "<a href='x'>R&D</a>"]})
  = "<h1><a href='x'>R&D</a></h1>".
Proof.
  apply (get_root_message_verbatim werkzeug "__main__" (GET "/")
           {["MESSAGE" := "<a href='x'>R&D</a>"]} "<a href='x'>R&D</a>").
  - split; reflexivity.
  - vm_compute. reflexivity.
Defined.

(** C3, as the specification states it, fails: with [MESSAGE] set to the
    empty string the request is a GET for the root path, the variable is
    the empty string, and the body is not [<h1>Hello, Default!</h1>]. *)
Lemma empty_message_not_default :
  get_root (GET "/")
  ∧ ({["MESSAGE" := ""]} : environ) !! "MESSAGE" = Some ""
  ∧ data (respond werkzeug "__main__" (GET "/") {["MESSAGE" := ""]})
    ≠ "<h1>Hello, Default!</h1>".
Proof.
  split; [split; reflexivity |]. split; [vm_compute; reflexivity |].
  vm_compute. discriminate.
Qed.

(** C3, amended.  For every GET request for the root path: if [MESSAGE] is
    absent the greeting is the literal default and the body is
    [<h1>Hello, Default!</h1>]; if [MESSAGE] is the empty string the
    greeting is the empty string and the body is [<h1></h1>]. *)
Theorem default_greeting_only_when_absent fw name req env :
  get_root req →
  (env !! "MESSAGE" = None →
   data (respond fw name req env) = "<h1>" +:+ "Hello, Default!" +:+ "</h1>")
  ∧ (env !! "MESSAGE" = Some "" →
     data (respond fw name req env) = "<h1>" +:+ "" +:+ "</h1>").
Proof.
  intros Hreq. unfold respond.
  rewrite wsgi_app_get_root by exact Hreq.
  split; intros Hm; rewrite Hm; reflexivity.
Qed.

Lemma default_greeting_only_when_absent_witness :
  data (respond werkzeug "__main__" (GET "/") ∅) = "<h1>Hello, Default!</h1>"
  ∧ data (respond werkzeug "__main__" (GET "/") {["MESSAGE" := ""]}) = "<h1></h1>".
Proof.
  assert (Hreq : get_root (GET "/")) by (split; reflexivity).
  split.
  - apply (proj1 (default_greeting_only_when_absent werkzeug "__main__" (GET "/") ∅ Hreq)).
    reflexivity.
  - apply (proj2 (default_greeting_only_when_absent werkzeug "__main__" (GET "/")
                    {["MESSAGE" := ""]} Hreq)).
    vm_compute. reflexivity.
Defined.

(** C4.  With [MESSAGE] set to the empty string the body of the response
    to [GET /] is exactly [<h1></h1>]: the empty value is present, and the
    default is not substituted. *)
Theorem empty_message_is_present fw name req env :
  get_root req →
  env !! "MESSAGE" = Some "" →
  data (respond fw name req env) = "<h1></h1>"
  ∧ data (respond fw name req env) ≠ "<h1>Hello, Default!</h1>".
Proof.
  intros Hreq Hempty. unfold respond.
  rewrite wsgi_app_get_root by exact Hreq.
  rewrite Hempty. split; [reflexivity | discriminate].
Qed.

Lemma empty_message_is_present_witness :
  data (respond werkzeug "__main__" (GET "/") {["MESSAGE" := ""]}) = "<h1></h1>"
  ∧ data (respond werkzeug "__main__" (GET "/") {["MESSAGE" := ""]})
    ≠ "<h1>Hello, Default!</h1>".
Proof.
  apply (empty_message_is_present werkzeug "__main__" (GET "/") {["MESSAGE" := ""]}).
  - split; reflexivity.
  - vm_compute. reflexivity.
Defined.

(** C8.  Every response the view produces for [GET /] has status 200 and
    content type [text/html]. *)
Theorem get_root_200_text_html fw name req env :
  get_root req →
  status_code (respond fw name req env) = 200%Z
  ∧ mimetype (respond fw name req env) = "text/html".
Proof.
  intros Hreq. unfold respond.
  rewrite wsgi_app_get_root by exact Hreq.
  split; reflexivity.
Qed.

Lemma get_root_200_text_html_witness :
  status_code (respond werkzeug "__main__" (GET "/") {["MESSAGE" := "Welcome!"]}) = 200%Z
  ∧ mimetype (respond werkzeug "__main__" (GET "/") {["MESSAGE" := "Welcome!"]}) = "text/html".
Proof.
  apply (get_root_200_text_html werkzeug "__main__" (GET "/")).
  split; reflexivity.
Defined.

(** C10.  The response to [GET /] is a function of the value of [MESSAGE]
    alone: two such requests, however their headers, query strings and
    bodies differ, get the same response whenever the two environments
    agree on [MESSAGE]; and serving a request leaves the environment as it
    was. *)
Theorem response_depends_only_on_message fw name r1 r2 env1 env2 :
  get_root r1 →
  get_root r2 →
  env1 !! "MESSAGE" = env2 !! "MESSAGE" →
  respond fw name r1 env1 = respond fw name r2 env2
  ∧ (Flask.wsgi_app fw (app name) r1 env1).2 = env1
  ∧ (Flask.wsgi_app fw (app name) r2 env2).2 = env2.
Proof.
  intros H1 H2 Hm. unfold respond.
  rewrite !wsgi_app_get_root by assumption.
  rewrite Hm. repeat split; reflexivity.
Qed.

Lemma response_depends_only_on_message_witness :
  let r1 := GET "/" in
  let r2 := {| method := "GET"; path := "/"; query_string := "lang=fr";
               headers := [("Accept", "text/plain"); ("Cookie", "id=7")];
               body := "ignored" |} in
  let env1 : environ := {["MESSAGE" := "Hi"]} in
  let env2 : environ := {["MESSAGE" := "Hi"; "HOME" := "/root"]} in
  respond werkzeug "__main__" r1 env1 = respond werkzeug "__main__" r2 env2
  ∧ (Flask.wsgi_app werkzeug (app "__main__") r1 env1).2 = env1
  ∧ (Flask.wsgi_app werkzeug (app "__main__") r2 env2).2 = env2.
Proof.
  apply response_depends_only_on_message.
  - split; reflexivity.
  - split; reflexivity.
  - vm_compute. reflexivity.
Defined.

(** ** Routing *)

(** C5.  The application has exactly one route, the root path; a request
    for any other path, whatever its method, does not reach the view: it
    gets the framework's default not-found response, status 404.  Routes
    and matching are the specification's ([Flask.Flask],
    [Flask.match_rule]). *)
Theorem other_paths_not_found fw name req env :
  path req ≠ "/" →
  map Flask.rule_path (Flask.url_map (app name)) = ["/"]
  ∧ Flask.wsgi_app fw (app name) req env = (Flask.not_found fw, env)
  ∧ status_code (respond fw name req env) = 404%Z.
Proof.
  intros Hp. split; [reflexivity |].
  unfold respond, Flask.wsgi_app.
  rewrite match_rule_other by exact Hp.
  split; reflexivity.
Qed.

Lemma other_paths_not_found_witness :
  map Flask.rule_path (Flask.url_map (app "__main__")) = ["/"]
  ∧ Flask.wsgi_app werkzeug (app "__main__") (GET "/nonexistent") ∅
    = (Flask.not_found werkzeug, ∅)
  ∧ status_code (respond werkzeug "__main__" (GET "/nonexistent") ∅) = 404%Z.
Proof.
  apply (other_paths_not_found werkzeug "__main__" (GET "/nonexistent") ∅).
  simpl. discriminate.
Defined.

(** ** The server loop *)

Section Serving.

Context (fw : Flask.defaults).

Lemma serve_connection (a : Flask.app) req evs env :
  Flask.serve fw a (Flask.Connection req :: evs) env
  = ((Flask.wsgi_app fw a req env).1
       :: (Flask.serve fw a evs (Flask.wsgi_app fw a req env).2).1,
     (Flask.serve fw a evs (Flask.wsgi_app fw a req env).2).2).
Proof.
  cbn [Flask.serve]. unfold mbind, M_bind, mret, M_ret.
  destruct (Flask.wsgi_app fw a req env) as [resp env1]. cbn [fst snd].
  destruct (Flask.serve fw a evs env1) as [rest env2]. reflexivity.
Qed.

Lemma serve_putenv (a : Flask.app) k v evs env :
  Flask.serve fw a (Flask.Putenv k v :: evs) env = Flask.serve fw a evs (<[k := v]> env).
Proof. reflexivity. Qed.

Lemma serve_unsetenv (a : Flask.app) k evs env :
  Flask.serve fw a (Flask.Unsetenv k :: evs) env = Flask.serve fw a evs (delete k env).
Proof. reflexivity. Qed.

Context (name : string).

(** The environment after a run is what the environment events made of
    it: the application itself writes nothing. *)
Lemma serve_environ evs env :
  (Flask.serve fw (app name) evs env).2 = environ_after evs env.
Proof.
  revert env. induction evs as [| [req | k v | k] evs IH]; intros env.
  - reflexivity.
  - rewrite serve_connection, wsgi_app_environ. cbn [snd]. apply IH.
  - rewrite serve_putenv. apply IH.
  - rewrite serve_unsetenv. apply IH.
Qed.

(** One response per connection. *)
Lemma serve_length evs env :
  length (Flask.serve fw (app name) evs env).1 = connections evs.
Proof.
  revert env. induction evs as [| [req | k v | k] evs IH]; intros env.
  - reflexivity.
  - rewrite serve_connection. cbn [fst length connections]. f_equal. apply IH.
  - rewrite serve_putenv. apply IH.
  - rewrite serve_unsetenv. apply IH.
Qed.

(** The response to a request is computed in the environment that the
    events before it have produced. *)
Lemma serve_lookup pre req post env :
  (Flask.serve fw (app name) (pre ++ Flask.Connection req :: post) env).1 !! connections pre
  = Some (respond fw name req (environ_after pre env)).
Proof.
  revert env. induction pre as [| [r | k v | k] pre IH]; intros env.
  - cbn [app connections]. rewrite app_nil_l, serve_connection. reflexivity.
  - rewrite <- app_comm_cons, serve_connection, wsgi_app_environ.
    cbn [fst connections]. apply IH.
  - rewrite <- app_comm_cons, serve_putenv. apply IH.
  - rewrite <- app_comm_cons, serve_unsetenv. apply IH.
Qed.

End Serving.

(** C9.  [MESSAGE] is looked up anew for every request: in any run of the
    server, the body of the response to a GET request for the root path is
    built from the value [MESSAGE] has when that request arrives, after
    all earlier changes to the environment, and not from the value it had
    at an earlier request or at startup. *)
Theorem message_read_at_each_request fw name pre req post env :
  get_root req →
  ∃ resp,
    (Flask.serve fw (app name) (pre ++ Flask.Connection req :: post) env).1
      !! connections pre = Some resp
    ∧ data resp
      = "<h1>" +:+ default "Hello, Default!" (environ_after pre env !! "MESSAGE") +:+ "</h1>".
Proof.
  intros Hreq. eexists. split; [apply serve_lookup |].
  unfold respond. rewrite wsgi_app_get_root by exact Hreq. reflexivity.
Qed.

Lemma message_read_at_each_request_witness :
  let pre := [Flask.Putenv "MESSAGE" "one"; Flask.Connection (GET "/");
              Flask.Putenv "MESSAGE" "two"] in
  ∃ resp,
    (Flask.serve werkzeug (app "__main__") (pre ++ [Flask.Connection (GET "/")]) ∅).1
      !! 1%nat = Some resp
    ∧ data resp = "<h1>two</h1>".
Proof.
  exact (message_read_at_each_request werkzeug "__main__"
           [Flask.Putenv "MESSAGE" "one"; Flask.Connection (GET "/");
            Flask.Putenv "MESSAGE" "two"]
           (GET "/") [] ∅ (conj eq_refl eq_refl)).
Defined.

Example two_requests_two_values :
  map data
    (Flask.serve werkzeug (app "__main__")
       [Flask.Connection (GET "/"); Flask.Putenv "MESSAGE" "one";
        Flask.Connection (GET "/"); Flask.Unsetenv "MESSAGE";
        Flask.Connection (GET "/")] {["MESSAGE" := "zero"]}).1
  = ["<h1>zero</h1>"; "<h1>one</h1>"; "<h1>Hello, Default!</h1>"].
Proof. vm_compute. reflexivity. Qed.

(** ** Startup *)

Lemma main_bind_failed fw w env e :
  Flask.try_bind w "0.0.0.0" 80%Z = Some e →
  main fw "__main__" w env
  = ({| Flask.bind_attempts := [("0.0.0.0", 80%Z)]; Flask.listening := None;
        Flask.responses := []; Flask.exit_status := Some 1%Z |}, env).
Proof.
  intros Hb. unfold main. cbn [String.eqb Ascii.eqb Bool.eqb].
  unfold Flask.run. rewrite Hb. reflexivity.
Qed.

Lemma main_bound fw w env :
  Flask.try_bind w "0.0.0.0" 80%Z = None →
  (main fw "__main__" w env).1
  = {| Flask.bind_attempts := [("0.0.0.0", 80%Z)];
       Flask.listening := Some ("0.0.0.0", 80%Z);
       Flask.responses := (Flask.serve fw (app "__main__") (Flask.events w) env).1;
       Flask.exit_status := Some 0%Z |}.
Proof.
  intros Hb. unfold main. cbn [String.eqb Ascii.eqb Bool.eqb].
  unfold Flask.run. rewrite Hb. unfold mbind, M_bind, mret, M_ret.
  destruct (Flask.serve fw (app "__main__") (Flask.events w) env). reflexivity.
Qed.

(** C6.  When the listener cannot be bound at [0.0.0.0:80] the process
    ends with a non-zero exit status, is listening nowhere and has
    answered no request; and a run ends with a non-zero status in that
    case only. *)
Theorem bind_failure_is_fatal fw w env :
  let p := (main fw "__main__" w env).1 in
  (Flask.try_bind w "0.0.0.0" 80%Z ≠ None →
   (∃ c, Flask.exit_status p = Some c ∧ c ≠ 0%Z)
   ∧ Flask.listening p = None
   ∧ Flask.responses p = [])
  ∧ ((∃ c, Flask.exit_status p = Some c ∧ c ≠ 0%Z) →
     Flask.try_bind w "0.0.0.0" 80%Z ≠ None).
Proof.
  cbv zeta. destruct (Flask.try_bind w "0.0.0.0" 80%Z) as [e |] eqn:Hb.
  - rewrite (main_bind_failed fw w env e Hb). cbn [fst]. split.
    + intros _. split; [exists 1%Z; split; [reflexivity | discriminate] |].
      split; reflexivity.
    + intros _. discriminate.
  - rewrite (main_bound fw w env Hb). split.
    + intros Hne. exfalso. apply Hne. reflexivity.
    + intros (c & Hc & Hnz). cbn in Hc. exfalso. apply Hnz. congruence.
Qed.

Lemma bind_failure_is_fatal_witness :
  let p := (main werkzeug "__main__" busy_host ∅).1 in
  (∃ c, Flask.exit_status p = Some c ∧ c ≠ 0%Z)
  ∧ Flask.listening p = None
  ∧ Flask.responses p = [].
Proof.
  apply (proj1 (bind_failure_is_fatal werkzeug busy_host ∅)).
  simpl. discriminate.
Defined.

(** C7.  Started as a script, the program binds its listener once, at
    host [0.0.0.0] and port 80, and that is the address it listens on
    whenever the bind succeeds. *)
Theorem listens_on_all_interfaces_port_80 fw w env :
  let p := (main fw "__main__" w env).1 in
  Flask.bind_attempts p = [("0.0.0.0", 80%Z)]
  ∧ Flask.listening p
    = match Flask.try_bind w "0.0.0.0" 80%Z with
      | None => Some ("0.0.0.0", 80%Z)
      | Some _ => None
      end.
Proof.
  cbv zeta. destruct (Flask.try_bind w "0.0.0.0" 80%Z) as [e |] eqn:Hb.
  - rewrite (main_bind_failed fw w env e Hb). split; reflexivity.
  - rewrite (main_bound fw w env Hb). split; reflexivity.
Qed.

Example free_host_serves :
  (main werkzeug "__main__" free_host {["MESSAGE" := "Welcome!"]}).1
  = {| Flask.bind_attempts := [("0.0.0.0", 80%Z)];
       Flask.listening := Some ("0.0.0.0", 80%Z);
       Flask.responses := [Flask.make_response "<h1>Welcome!</h1>"];
       Flask.exit_status := Some 0%Z |}.
Proof. vm_compute. reflexivity. Qed.

Example imported_starts_nothing :
  (main werkzeug "app" free_host ∅).1 = Flask.imported.
Proof. reflexivity. Qed.

(** ** More about the view: what a page tells about the message *)

Section Strings.

Lemma append_cons (c : Ascii.ascii) (s t : string) : String c s +:+ t = String c (s +:+ t).
Proof. reflexivity. Qed.

Lemma length_append (s t : string) :
  String.length (s +:+ t) = String.length s + String.length t.
Proof.
  induction s as [| c s IH]; [reflexivity |].
  rewrite append_cons. cbn [String.length]. rewrite IH. reflexivity.
Qed.

Lemma append_assoc (s t u : string) : (s +:+ t) +:+ u = s +:+ t +:+ u.
Proof.
  induction s as [| c s IH]; [reflexivity |].
  rewrite !append_cons, IH. reflexivity.
Qed.

(** A common suffix can be dropped from both sides of an equation. *)
Lemma append_cancel_r (s a b : string) : a +:+ s = b +:+ s → a = b.
Proof.
  revert b. induction a as [| c a IH]; intros [| d b] H.
  - reflexivity.
  - apply (f_equal String.length) in H.
    rewrite !length_append in H. cbn [String.length] in H. lia.
  - apply (f_equal String.length) in H.
    rewrite !length_append in H. cbn [String.length] in H. lia.
  - rewrite !append_cons in H. injection H as Hc Hs.
    rewrite Hc, (IH b Hs). reflexivity.
Qed.

Lemma substring_append_0 (s t : string) :
  String.substring 0 (String.length s) (s +:+ t) = s.
Proof.
  induction s as [| c s IH].
  - change ("" +:+ t) with t. destruct t; reflexivity.
  - rewrite append_cons. cbn [String.length String.substring]. rewrite IH. reflexivity.
Qed.

Lemma substring_append_skip (p s : string) (n : nat) :
  String.substring (String.length p) n (p +:+ s) = String.substring 0 n s.
Proof.
  induction p as [| c p IH]; [reflexivity |].
  rewrite append_cons. cbn [String.length String.substring]. exact IH.
Qed.

(** The heading around a message determines the message. *)
Lemma heading_inj (a b : string) :
  "<h1>" +:+ a +:+ "</h1>" = "<h1>" +:+ b +:+ "</h1>" → a = b.
Proof.
  intros H. apply (inj (String.append "<h1>")) in H.
  exact (append_cancel_r "</h1>" a b H).
Qed.

End Strings.

(** X1.  The page is the message between the two tags and nothing else:
    it is nine characters longer than the greeting, starts with [<h1>],
    ends with [</h1>], and the characters in between are the greeting as
    [os.getenv] returned it. *)
Theorem hello_body_round_trip (env : environ) :
  let page := (hello env).1 in
  let message := default "Hello, Default!" (env !! "MESSAGE") in
  String.length page = String.length message + 9
  ∧ String.substring 0 4 page = "<h1>"
  ∧ String.substring 4 (String.length page - 9) page = message
  ∧ String.substring (4 + String.length message) 5 page = "</h1>".
Proof.
  cbv zeta. rewrite hello_spec. cbn [fst].
  set (m := default "Hello, Default!" (env !! "MESSAGE")).
  assert (Hlen : String.length ("<h1>" +:+ m +:+ "</h1>") = String.length m + 9).
  { rewrite !length_append. cbn [String.length]. lia. }
  split; [exact Hlen |].
  split; [exact (substring_append_0 "<h1>" (m +:+ "</h1>")) |]. split.
  - rewrite Hlen. replace (String.length m + 9 - 9) with (String.length m) by lia.
    exact (eq_trans (substring_append_skip "<h1>" (m +:+ "</h1>") (String.length m))
                    (substring_append_0 m "</h1>")).
  - change (4 + String.length m) with (String.length "<h1>" + String.length m).
    rewrite <- length_append, <- append_assoc, substring_append_skip.
    exact (substring_append_0 "</h1>" "").
Qed.

(** X2.  Two environments give the same page exactly when [os.getenv]
    resolves [MESSAGE] to the same greeting in both: different greetings
    never collapse into one page. *)
Theorem hello_body_determines_greeting (env1 env2 : environ) :
  (hello env1).1 = (hello env2).1
  ↔ default "Hello, Default!" (env1 !! "MESSAGE")
    = default "Hello, Default!" (env2 !! "MESSAGE").
Proof.
  rewrite !hello_spec. cbn [fst]. split.
  - apply heading_inj.
  - intros ->. reflexivity.
Qed.

(** X3.  The default page [<h1>Hello, Default!</h1>] is returned exactly
    when [MESSAGE] is absent or is set to the default text itself; every
    other value of [MESSAGE], the empty string included, gives another
    page. *)
Theorem hello_default_page_iff (env : environ) :
  (hello env).1 = "<h1>Hello, Default!</h1>"
  ↔ env !! "MESSAGE" = None ∨ env !! "MESSAGE" = Some "Hello, Default!".
Proof.
  rewrite hello_spec. cbn [fst]. split.
  - intros H.
    apply (heading_inj (default "Hello, Default!" (env !! "MESSAGE")) "Hello, Default!") in H.
    destruct (env !! "MESSAGE") as [s |]; [right | left; reflexivity].
    cbn in H. rewrite H. reflexivity.
  - intros [-> | ->]; reflexivity.
Qed.

(** X5.  No variable but [MESSAGE] reaches the page: setting or removing
    any other variable, [WELCOME_MESSAGE] of the earlier version of the
    module included, leaves the view's result as it was. *)
Theorem hello_ignores_other_variables (env : environ) (k v : string) :
  k ≠ "MESSAGE" →
  (hello (<[k := v]> env)).1 = (hello env).1
  ∧ (hello (delete k env)).1 = (hello env).1.
Proof.
  intros Hk. rewrite !hello_spec. cbn [fst].
  rewrite lookup_insert_ne by exact Hk.
  rewrite lookup_delete_ne by exact Hk.
  split; reflexivity.
Qed.

Lemma hello_ignores_other_variables_witness :
  (hello (<["WELCOME_MESSAGE" := "Hello, Welcome to KodeCamp DevOps Bootcamp!"]> ∅)).1
  = (hello ∅).1
  ∧ (hello (delete "WELCOME_MESSAGE" ∅)).1 = (hello ∅).1.
Proof.
  apply (hello_ignores_other_variables ∅ "WELCOME_MESSAGE").
  discriminate.
Defined.
